(** * Poco::TaskManager (Foundation/src/TaskManager.cpp)

    A shallow embedding of the task manager: its registry [_taskList], the
    throttle timestamp [_lastProgressNotification], the registry mutex and the
    calls it makes into collaborators (pool admission, task execution, task
    cancellation, notification posting).  Each such call is recorded in a
    trace together with whether the registry mutex was held at that moment.

    Tasks are identified by their address (a [nat]); the task's own
    attributes touched by the manager ([setOwner], [setState]) are kept in
    the world state next to the manager's fields.  Time is a [Z] count of
    microseconds, the unit of [Poco::Timestamp]. *)

From Stdlib Require Import List ZArith Arith Bool Lia.
Import ListNotations.

Open Scope Z_scope.

(** ** Data model *)

Definition TaskId := nat.

(** [Task::TaskState]. *)
Inductive TaskState := TASK_IDLE | TASK_STARTING | TASK_RUNNING
                     | TASK_CANCELLING | TASK_FINISHED.

(** The notifications the manager posts to its [NotificationCenter]. *)
Inductive Notification :=
| TaskStartedNotification (t : TaskId)
| TaskProgressNotification (t : TaskId) (progress : Z)
| TaskCancelledNotification (t : TaskId)
| TaskFinishedNotification (t : TaskId)
| TaskFailedNotification (t : TaskId).

(** Calls the manager makes into code that is not its own. *)
Inductive Call :=
| CallPoolStart (t : TaskId) (cpu : Z)   (** [_threadPool.start(task, name, cpu)] *)
| CallRun (t : TaskId)                   (** [pAutoTask->run()] *)
| CallCancel (t : TaskId)                (** [it->cancel()] on each entry *)
| CallPost (n : Notification).           (** [_nc.postNotification(...)] *)

(** A trace entry: the call, and whether [_mutex] was held when it was made. *)
Record Event := Ev { ev_call : Call; ev_locked : bool }.

(** Exceptions that travel through the manager. *)
Inductive Exc :=
| AdmissionError   (** raised by the pool's [start] (e.g. no thread available) *)
| TaskError        (** raised out of a task's [run()] *)
| Deadlock.        (** the (non-recursive) [FastMutex] locked again by its holder *)

Record St := mkSt {
  _taskList : list TaskId;                 (** [TaskList _taskList] *)
  _lastProgressNotification : Z;           (** [Timestamp _lastProgressNotification] *)
  _mutex : bool;                           (** [FastMutex _mutex]: held or not *)
  owner : TaskId -> bool;                  (** task's [_pOwner] is this manager *)
  state : TaskId -> TaskState;             (** task's [_state] *)
  trace : list Event                       (** calls made, newest first *)
}.

Definition set_taskList (l : list TaskId) (s : St) : St :=
  mkSt l (_lastProgressNotification s) (_mutex s) (owner s) (state s) (trace s).
Definition set_last (ts : Z) (s : St) : St :=
  mkSt (_taskList s) ts (_mutex s) (owner s) (state s) (trace s).
Definition set_mutex (b : bool) (s : St) : St :=
  mkSt (_taskList s) (_lastProgressNotification s) b (owner s) (state s) (trace s).
Definition set_owner (o : TaskId -> bool) (s : St) : St :=
  mkSt (_taskList s) (_lastProgressNotification s) (_mutex s) o (state s) (trace s).
Definition set_state (f : TaskId -> TaskState) (s : St) : St :=
  mkSt (_taskList s) (_lastProgressNotification s) (_mutex s) (owner s) f (trace s).
Definition set_trace (tr : list Event) (s : St) : St :=
  mkSt (_taskList s) (_lastProgressNotification s) (_mutex s) (owner s) (state s) tr.

Definition upd {A} (f : TaskId -> A) (k : TaskId) (v : A) : TaskId -> A :=
  fun k' => if Nat.eqb k' k then v else f k'.

(** ** A state and exception monad *)

Definition M (A : Type) := St -> (A + Exc) * St.

Definition ret {A} (a : A) : M A := fun s => (inl a, s).
Definition bind {A B} (m : M A) (k : A -> M B) : M B :=
  fun s => match m s with
           | (inl a, s') => k a s'
           | (inr e, s') => (inr e, s')
           end.
Definition throw {A} (e : Exc) : M A := fun s => (inr e, s).
(** [try { m } catch (...) { h }] *)
Definition catch_ {A} (m : M A) (h : Exc -> M A) : M A :=
  fun s => match m s with
           | (inl a, s') => (inl a, s')
           | (inr e, s') => h e s'
           end.
Definition gets {A} (f : St -> A) : M A := fun s => (inl (f s), s).
Definition modify (f : St -> St) : M unit := fun s => (inl tt, f s).

Notation "x <- m ;; k" := (bind m (fun x => k))
  (at level 61, m at next level, right associativity).
Notation "m ;; k" := (bind m (fun _ => k)) (at level 61, right associativity).

(** ** Primitives *)

(** [_mutex.lock()]: a [FastMutex] is not recursive; locking it again from
    the thread that holds it never returns. *)
Definition lock : M unit :=
  fun s => if _mutex s then (inr Deadlock, s) else (inl tt, set_mutex true s).
Definition unlock : M unit := modify (set_mutex false).

(** [FastMutex::ScopedLock lock(_mutex); body]: released on every exit. *)
Definition scoped {A} (body : M A) : M A :=
  lock ;; r <- catch_ body (fun e => unlock ;; throw e) ;; unlock ;; ret r.

(** Record a call into foreign code, with the current state of [_mutex]. *)
Definition call (c : Call) : M unit :=
  modify (fun s => set_trace (Ev c (_mutex s) :: trace s) s).

Definition postNotification (n : Notification) : M unit := call (CallPost n).

(** [Task::setOwner], [Task::setState]. *)
Definition setOwner (t : TaskId) : M unit :=
  modify (fun s => set_owner (upd (owner s) t true) s).
Definition setState (t : TaskId) (st : TaskState) : M unit :=
  modify (fun s => set_state (upd (state s) t st) s).

(** [_taskList.push_back(t)], [_taskList.pop_back()]. *)
Definition push_back (t : TaskId) : M unit :=
  modify (fun s => set_taskList (_taskList s ++ [t]) s).
Definition pop_back : M unit :=
  modify (fun s => set_taskList (removelast (_taskList s)) s).

(** The loop of [taskFinished]: erase the first entry equal to [t]. *)
Fixpoint erase_first (t : TaskId) (l : list TaskId) : list TaskId :=
  match l with
  | [] => []
  | x :: r => if Nat.eqb x t then r else x :: erase_first t r
  end.

Fixpoint for_each (f : TaskId -> M unit) (l : list TaskId) : M unit :=
  match l with
  | [] => ret tt
  | x :: r => f x ;; for_each f r
  end.

(** ** Poco::Timestamp, read at the clock value [now] of the call *)

(** [Timestamp::isElapsed(interval)]: [Timestamp now; return now - *this >= interval;] *)
Definition isElapsed (now ts interval : Z) : bool := interval <=? now - ts.

(** [TaskManager::MIN_PROGRESS_NOTIFICATION_INTERVAL = 100000] (microseconds). *)
Definition MIN_PROGRESS_NOTIFICATION_INTERVAL : Z := 100000.

(** ** The manager *)

(** [TaskManager::TaskManager(...)]: empty registry; [_lastProgressNotification]
    is default-constructed, and a default [Timestamp] holds the current time,
    here [created]. *)
Definition TaskManager (created : Z) : St :=
  mkSt [] created false (fun _ => false) (fun _ => TASK_IDLE) [].

Section Admission.
(** Whether the pool admits a task ([ThreadPool::start] returns) or raises. *)
Variable admits : TaskId -> bool.

Definition threadPool_start (t : TaskId) (cpu : Z) : M unit :=
  call (CallPoolStart t cpu) ;;
  if admits t then ret tt else throw AdmissionError.

(** [void TaskManager::start(Task* pTask, int cpu)] *)
Definition start (t : TaskId) (cpu : Z) : M unit :=
  scoped (
    setOwner t ;;
    setState t TASK_STARTING ;;
    push_back t ;;
    catch_ (threadPool_start t cpu) (fun e => pop_back ;; throw e)).
End Admission.

Section Sync.
(** [Task::run()]: the task's body, run on the calling thread; it may call
    back into the manager and may raise. *)
Variable run : TaskId -> M unit.

(** [void TaskManager::startSync(Task* pTask)] *)
Definition startSync (t : TaskId) : M unit :=
  lock ;;
  setOwner t ;;
  setState t TASK_STARTING ;;
  push_back t ;;
  unlock ;;
  catch_ (call (CallRun t) ;; run t)
         (fun e => scoped pop_back ;; throw e).
End Sync.

(** [void TaskManager::cancelAll()] *)
Definition cancelAll : M unit :=
  scoped (l <- gets _taskList ;; for_each (fun t => call (CallCancel t)) l).

(** [TaskList TaskManager::taskList() const] *)
Definition taskList : M (list TaskId) := scoped (gets _taskList).

(** [void TaskManager::taskStarted(Task* pTask)] *)
Definition taskStarted (t : TaskId) : M unit :=
  postNotification (TaskStartedNotification t).

(** [void TaskManager::taskProgress(Task* pTask, float progress)], called at
    clock value [now]. *)
Definition taskProgress (now : Z) (t : TaskId) (progress : Z) : M unit :=
  lock ;;
  last <- gets _lastProgressNotification ;;
  if isElapsed now last MIN_PROGRESS_NOTIFICATION_INTERVAL then
    modify (set_last now) ;;
    unlock ;;
    postNotification (TaskProgressNotification t progress)
  else unlock.

(** [void TaskManager::taskCancelled(Task* pTask)] *)
Definition taskCancelled (t : TaskId) : M unit :=
  postNotification (TaskCancelledNotification t).

(** [void TaskManager::taskFinished(Task* pTask)] *)
Definition taskFinished (t : TaskId) : M unit :=
  lock ;;
  modify (fun s => set_taskList (erase_first t (_taskList s)) s) ;;
  unlock ;;
  postNotification (TaskFinishedNotification t).

(** [void TaskManager::taskFailed(Task* pTask, const Exception& exc)] *)
Definition taskFailed (t : TaskId) : M unit :=
  postNotification (TaskFailedNotification t).

(** Observations on a run. *)
Definition result {A} (r : (A + Exc) * St) : A + Exc := fst r.
Definition final {A} (r : (A + Exc) * St) : St := snd r.

(** ** Drivers for the progress scenarios *)

(** A sequence of [taskProgress] calls: (clock value, task, progress). *)
Fixpoint progressCalls (calls : list (Z * TaskId * Z)) : M unit :=
  match calls with
  | [] => ret tt
  | (now, t, p) :: r => taskProgress now t p ;; progressCalls r
  end.

(** Progress values of the forwarded progress notifications, oldest first. *)
Fixpoint forwarded_rev (tr : list Event) : list Z :=
  match tr with
  | [] => []
  | Ev (CallPost (TaskProgressNotification _ p)) _ :: r => p :: forwarded_rev r
  | _ :: r => forwarded_rev r
  end.
Definition forwarded (tr : list Event) : list Z := rev (forwarded_rev tr).

Definition count_progress (tr : list Event) : nat := length (forwarded_rev tr).

(** Task 1 reports progress at each of [times]; the reported value is the
    clock value, so that the forwarded values name the forwarded calls. *)
Definition reportAt (times : list Z) : list (Z * TaskId * Z) :=
  map (fun now => (now, 1%nat, now)) times.

(** Number of progress notifications forwarded by a sequence of calls. *)
Definition posted (calls : list (Z * TaskId * Z)) (s : St) : Z :=
  Z.of_nat (count_progress (trace (final (progressCalls calls s)))) -
  Z.of_nat (count_progress (trace s)).

(** [ceil (a / b)] for [b > 0]. *)
Definition ceil_div (a b : Z) : Z := - ((- a) / b).

(** Scenario B of the spec: task 1 reports progress at 0, 50, 120 and
    250 ms to a manager constructed at clock value [created]. *)
Definition scenarioB_times : list Z := [0; 50000; 120000; 250000].
Definition scenarioB (created : Z) : list Z :=
  forwarded (trace (final (progressCalls (reportAt scenarioB_times)
                                        (TaskManager created)))).

(** A pool that admits every task. *)
Definition admit_all : TaskId -> bool := fun _ => true.

(** A task body that starts a subtask [u] through the same manager, then
    raises. *)
Definition run_spawn_then_raise (u : TaskId) : TaskId -> M unit :=
  fun _ => start admit_all u 0 ;; throw TaskError.

(** A task body that reports itself finished (as [Task::run] does on exit)
    and then raises, e.g. because an observer of the finished notification
    threw. *)
Definition run_finish_then_raise : TaskId -> M unit :=
  fun t => taskFinished t ;; throw TaskError.

(** The normal path of [Task::run()] seen from the manager: the task reports
    itself started and, on exit, finished. *)
Definition run_normal : TaskId -> M unit :=
  fun t => taskStarted t ;; taskFinished t.

(** ** Generic facts about the primitives *)

Lemma removelast_snoc (l : list TaskId) t : removelast (l ++ [t]) = l.
Proof.
  induction l as [|x r IH]; [reflexivity|].
  cbn [app removelast]. rewrite IH. destruct r; reflexivity.
Qed.

Lemma erase_first_notin t l : ~ In t l -> erase_first t l = l.
Proof.
  induction l as [|x r IH]; intro H; [reflexivity|].
  cbn [erase_first]. destruct (Nat.eqb_spec x t) as [->|Hne].
  - exfalso. apply H. left. reflexivity.
  - rewrite IH; [reflexivity|]. intro Hin. apply H. right. exact Hin.
Qed.

Lemma erase_first_split t l :
  (~ In t l /\ erase_first t l = l) \/
  (exists l1 l2, l = l1 ++ t :: l2 /\ ~ In t l1 /\ erase_first t l = l1 ++ l2).
Proof.
  induction l as [|x r IH].
  - left. split; [intros []|reflexivity].
  - cbn [erase_first]. destruct (Nat.eqb_spec x t) as [->|Hne].
    + right. exists [], r. repeat split. intros [].
    + destruct IH as [[Hn He]|(l1 & l2 & -> & Hn & He)].
      * left. split; [|rewrite He; reflexivity].
        intros [H|H]; [congruence|contradiction].
      * right. exists (x :: l1), l2. split; [reflexivity|]. split.
        -- intros [H|H]; [congruence|contradiction].
        -- rewrite He. reflexivity.
Qed.

Lemma NoDup_erase_first_notin t l : NoDup l -> ~ In t (erase_first t l).
Proof.
  intro Hnd. destruct (erase_first_split t l) as [[Hn He]|(l1 & l2 & -> & Hn & He)].
  - rewrite He. exact Hn.
  - rewrite He. apply NoDup_remove_2 in Hnd. exact Hnd.
Qed.

(** ** Claims *)

(** C1: when the pool's admission raises inside [start t cpu], the entry
    pushed for [t] is popped again and the admission error reaches the
    caller: afterwards the registry (and so every [taskList()] snapshot) is
    the one before the call, it does not contain [t], and [t] is left owned
    by this manager in state [TASK_STARTING]. *)
Theorem start_admission_failure_rolls_back admits t cpu s
  (Hfree : _mutex s = false)
  (Hfresh : ~ In t (_taskList s))
  (Hrej : admits t = false) :
  let r := start admits t cpu s in
  result r = inr AdmissionError /\
  _taskList (final r) = _taskList s /\
  result (taskList (final r)) = inl (_taskList s) /\
  ~ In t (_taskList (final r)) /\
  owner (final r) t = true /\
  state (final r) t = TASK_STARTING /\
  _mutex (final r) = false.
Proof.
  destruct s as [l last m o st tr]; cbn in Hfree, Hfresh; subst m.
  cbv [start scoped threadPool_start lock unlock setOwner setState push_back
       pop_back call catch_ bind ret throw modify taskList gets result final
       set_mutex set_owner set_state set_taskList set_trace upd].
  rewrite Hrej. cbn. rewrite removelast_snoc, Nat.eqb_refl.
  repeat split; assumption.
Qed.

Lemma start_admission_failure_rolls_back_witness :
  let r := start (fun _ => false) 1%nat 0 (TaskManager 0) in
  result r = inr AdmissionError /\
  _taskList (final r) = [] /\
  result (taskList (final r)) = inl [] /\
  ~ In 1%nat (_taskList (final r)) /\
  owner (final r) 1%nat = true /\
  state (final r) 1%nat = TASK_STARTING /\
  _mutex (final r) = false.
Proof.
  exact (start_admission_failure_rolls_back (fun _ => false) 1%nat 0
           (TaskManager 0) eq_refl (fun H => H) eq_refl).
Defined.

Lemma taskFinished_eq t s :
  _mutex s = false ->
  taskFinished t s =
    (inl tt, set_trace (Ev (CallPost (TaskFinishedNotification t)) false :: trace s)
               (set_taskList (erase_first t (_taskList s)) s)).
Proof.
  destruct s as [l last m o st tr]; cbn; intros ->. reflexivity.
Qed.

(** C3: [taskFinished t] removes at most one entry, the first one equal to
    [t]; when [t] is not registered the registry is unchanged; the call never
    raises; on a registry without duplicates a second [taskFinished t]
    leaves the registry unchanged. *)
Theorem taskFinished_removes_at_most_one t s (Hfree : _mutex s = false) :
  let s1 := final (taskFinished t s) in
  result (taskFinished t s) = inl tt /\
  ((~ In t (_taskList s) /\ _taskList s1 = _taskList s) \/
   (exists l1 l2, _taskList s = l1 ++ t :: l2 /\ ~ In t l1 /\
                  _taskList s1 = l1 ++ l2)) /\
  (NoDup (_taskList s) ->
     ~ In t (_taskList s1) /\
     result (taskFinished t s1) = inl tt /\
     _taskList (final (taskFinished t s1)) = _taskList s1).
Proof.
  cbv zeta. rewrite (taskFinished_eq t s Hfree). cbn [result final fst snd].
  split; [reflexivity|]. split.
  - destruct (erase_first_split t (_taskList s)) as [[Hn He]|(l1 & l2 & Hl & Hn & He)].
    + left. split; [exact Hn|exact He].
    + right. exists l1, l2. auto.
  - intro Hnd. pose proof (NoDup_erase_first_notin t _ Hnd) as Hn.
    rewrite taskFinished_eq by (destruct s; exact Hfree).
    cbn. split; [exact Hn|]. split; [reflexivity|].
    apply erase_first_notin. exact Hn.
Qed.

Lemma taskFinished_removes_at_most_one_witness :
  let s := set_taskList [3%nat; 1%nat; 2%nat] (TaskManager 0) in
  let s1 := final (taskFinished 1%nat s) in
  result (taskFinished 1%nat s) = inl tt /\
  ((~ In 1%nat (_taskList s) /\ _taskList s1 = _taskList s) \/
   (exists l1 l2, _taskList s = l1 ++ 1%nat :: l2 /\ ~ In 1%nat l1 /\
                  _taskList s1 = l1 ++ l2)) /\
  (NoDup (_taskList s) ->
     ~ In 1%nat (_taskList s1) /\
     result (taskFinished 1%nat s1) = inl tt /\
     _taskList (final (taskFinished 1%nat s1)) = _taskList s1).
Proof.
  exact (taskFinished_removes_at_most_one 1%nat
           (set_taskList [3%nat; 1%nat; 2%nat] (TaskManager 0)) eq_refl).
Defined.

(** C9: [taskFinished t] posts a finished notification for [t] whether or
    not [t] was registered, after releasing the mutex; calling it twice
    posts two finished notifications. *)
Theorem taskFinished_posts_unconditionally t s (Hfree : _mutex s = false) :
  trace (final (taskFinished t s)) =
    Ev (CallPost (TaskFinishedNotification t)) false :: trace s /\
  trace (final (bind (taskFinished t) (fun _ => taskFinished t) s)) =
    Ev (CallPost (TaskFinishedNotification t)) false ::
    Ev (CallPost (TaskFinishedNotification t)) false :: trace s.
Proof.
  split.
  - rewrite (taskFinished_eq t s Hfree). reflexivity.
  - unfold bind at 1. rewrite (taskFinished_eq t s Hfree).
    rewrite taskFinished_eq by (destruct s; exact Hfree). reflexivity.
Qed.

Lemma taskFinished_posts_unconditionally_witness :
  trace (final (taskFinished 7%nat (TaskManager 0))) =
    [Ev (CallPost (TaskFinishedNotification 7%nat)) false] /\
  trace (final (bind (taskFinished 7%nat) (fun _ => taskFinished 7%nat)
                  (TaskManager 0))) =
    [Ev (CallPost (TaskFinishedNotification 7%nat)) false;
     Ev (CallPost (TaskFinishedNotification 7%nat)) false].
Proof.
  exact (taskFinished_posts_unconditionally 7%nat (TaskManager 0) eq_refl).
Defined.

Lemma taskProgress_elapsed now t p s :
  _mutex s = false ->
  MIN_PROGRESS_NOTIFICATION_INTERVAL <= now - _lastProgressNotification s ->
  taskProgress now t p s =
    postNotification (TaskProgressNotification t p) (set_last now s).
Proof.
  destruct s as [l last m o st tr]; cbn [_mutex _lastProgressNotification].
  intros -> H. apply Z.leb_le in H.
  cbv [taskProgress lock unlock bind gets modify set_mutex set_last].
  cbn [_mutex _lastProgressNotification]. unfold isElapsed. rewrite H. reflexivity.
Qed.

Lemma taskProgress_dropped now t p s :
  _mutex s = false ->
  now - _lastProgressNotification s < MIN_PROGRESS_NOTIFICATION_INTERVAL ->
  taskProgress now t p s = (inl tt, s).
Proof.
  destruct s as [l last m o st tr]; cbn [_mutex _lastProgressNotification].
  intros -> H. apply Z.leb_gt in H.
  cbv [taskProgress lock unlock bind gets modify set_mutex set_last].
  cbn [_mutex _lastProgressNotification]. unfold isElapsed. rewrite H. reflexivity.
Qed.

(** C5: [taskProgress] posts a progress notification exactly when at least
    [MIN_PROGRESS_NOTIFICATION_INTERVAL] (100000 us = 100 ms) has passed since
    [_lastProgressNotification]; it then first sets the timestamp to the
    current time, and posts with the mutex released; otherwise nothing is
    posted and nothing changes. *)
Theorem taskProgress_throttle now t p s (Hfree : _mutex s = false) :
  MIN_PROGRESS_NOTIFICATION_INTERVAL = 100000 /\
  (MIN_PROGRESS_NOTIFICATION_INTERVAL <= now - _lastProgressNotification s ->
     taskProgress now t p s =
       postNotification (TaskProgressNotification t p) (set_last now s) /\
     _lastProgressNotification (final (taskProgress now t p s)) = now /\
     trace (final (taskProgress now t p s)) =
       Ev (CallPost (TaskProgressNotification t p)) false :: trace s) /\
  (now - _lastProgressNotification s < MIN_PROGRESS_NOTIFICATION_INTERVAL ->
     taskProgress now t p s = (inl tt, s) /\
     trace (final (taskProgress now t p s)) = trace s).
Proof.
  split; [reflexivity|]. split.
  - intro H. rewrite (taskProgress_elapsed now t p s Hfree H).
    destruct s; cbn in *; subst. repeat split.
  - intro H. rewrite (taskProgress_dropped now t p s Hfree H). split; reflexivity.
Qed.

Lemma taskProgress_throttle_witness :
  let s := TaskManager 0 in
  MIN_PROGRESS_NOTIFICATION_INTERVAL = 100000 /\
  (MIN_PROGRESS_NOTIFICATION_INTERVAL <= 150000 - _lastProgressNotification s ->
     taskProgress 150000 1%nat 5 s =
       postNotification (TaskProgressNotification 1%nat 5) (set_last 150000 s) /\
     _lastProgressNotification (final (taskProgress 150000 1%nat 5 s)) = 150000 /\
     trace (final (taskProgress 150000 1%nat 5 s)) =
       Ev (CallPost (TaskProgressNotification 1%nat 5)) false :: trace s) /\
  (150000 - _lastProgressNotification s < MIN_PROGRESS_NOTIFICATION_INTERVAL ->
     taskProgress 150000 1%nat 5 s = (inl tt, s) /\
     trace (final (taskProgress 150000 1%nat 5 s)) = trace s).
Proof.
  exact (taskProgress_throttle 150000 1%nat 5 (TaskManager 0) eq_refl).
Defined.

(** C10: a dropped [taskProgress] call changes nothing at all (registry,
    timestamp, mutex, trace); the timestamp moves only on a forwarded call;
    no [taskProgress] call changes the registry. *)
Theorem taskProgress_frame now t p s (Hfree : _mutex s = false) :
  let s1 := final (taskProgress now t p s) in
  (isElapsed now (_lastProgressNotification s)
     MIN_PROGRESS_NOTIFICATION_INTERVAL = false ->
     taskProgress now t p s = (inl tt, s)) /\
  (_lastProgressNotification s1 <> _lastProgressNotification s ->
     trace s1 = Ev (CallPost (TaskProgressNotification t p)) false :: trace s) /\
  (trace s1 = trace s -> _lastProgressNotification s1 = _lastProgressNotification s) /\
  _taskList s1 = _taskList s /\
  _mutex s1 = false.
Proof.
  cbv zeta. unfold isElapsed.
  destruct (Z.leb_spec MIN_PROGRESS_NOTIFICATION_INTERVAL
              (now - _lastProgressNotification s)) as [H|H].
  - rewrite (taskProgress_elapsed now t p s Hfree H).
    destruct s as [l last m o st tr]; cbn in *; subst.
    split; [discriminate|]. split; [reflexivity|]. split; [|split; reflexivity].
    intro Htr. exfalso. induction tr as [|e r IH]; [discriminate|].
    injection Htr as He Hr. subst e. apply IH. exact Hr.
  - rewrite (taskProgress_dropped now t p s Hfree H). cbn.
    split; [reflexivity|]. split; [intro Hc; contradiction Hc; reflexivity|].
    split; [reflexivity|]. split; [reflexivity|exact Hfree].
Qed.

Lemma taskProgress_frame_witness :
  let s := TaskManager 0 in
  let s1 := final (taskProgress 30000 1%nat 5 s) in
  (isElapsed 30000 (_lastProgressNotification s)
     MIN_PROGRESS_NOTIFICATION_INTERVAL = false ->
     taskProgress 30000 1%nat 5 s = (inl tt, s)) /\
  (_lastProgressNotification s1 <> _lastProgressNotification s ->
     trace s1 = Ev (CallPost (TaskProgressNotification 1%nat 5)) false :: trace s) /\
  (trace s1 = trace s -> _lastProgressNotification s1 = _lastProgressNotification s) /\
  _taskList s1 = _taskList s /\
  _mutex s1 = false.
Proof.
  exact (taskProgress_frame 30000 1%nat 5 (TaskManager 0) eq_refl).
Defined.

Lemma progressCalls_cons now t p r s :
  _mutex s = false ->
  progressCalls ((now, t, p) :: r) s =
    progressCalls r (final (taskProgress now t p s)).
Proof.
  intro Hfree. cbn [progressCalls]. unfold bind at 1.
  destruct (Z.leb_spec MIN_PROGRESS_NOTIFICATION_INTERVAL
              (now - _lastProgressNotification s)) as [H|H].
  - rewrite (taskProgress_elapsed now t p s Hfree H). reflexivity.
  - rewrite (taskProgress_dropped now t p s Hfree H). reflexivity.
Qed.

Ltac clock_side :=
  first
    [ reflexivity
    | cbn [final snd postNotification call modify set_trace set_last TaskManager
           _lastProgressNotification _mutex trace];
      unfold MIN_PROGRESS_NOTIFICATION_INTERVAL; lia ].

Ltac progress_step :=
  rewrite progressCalls_cons by reflexivity;
  first
    [ rewrite taskProgress_elapsed by clock_side
    | rewrite taskProgress_dropped by clock_side ].

(** C6 (as stated): a manager constructed at the instant of the first
    report does not forward the 0 ms update. *)
Lemma scenarioB_fresh_manager_counterexample :
  scenarioB 0 <> [0; 120000; 250000].
Proof. vm_compute. discriminate. Qed.

(** C6 (amended): the throttle timestamp of a new manager is its
    construction time [created].  If it was constructed at least 100 ms
    before the first report, the updates at 0, 120 and 250 ms are forwarded
    and the 50 ms one is dropped; if it was constructed less than 50 ms
    before the first report (in particular at the same instant), only the
    120 and 250 ms updates are forwarded. *)
Theorem scenarioB_forwarded (created : Z) :
  (created <= -100000 -> scenarioB created = [0; 120000; 250000]) /\
  (-50000 < created <= 0 -> scenarioB created = [120000; 250000]).
Proof.
  split; intro Hc; unfold scenarioB, scenarioB_times, reportAt; cbn [map];
    do 4 progress_step; reflexivity.
Qed.

Lemma posted_cons_elapsed now t p r s :
  _mutex s = false ->
  MIN_PROGRESS_NOTIFICATION_INTERVAL <= now - _lastProgressNotification s ->
  posted ((now, t, p) :: r) s =
    1 + posted r (final (taskProgress now t p s)) /\
  _mutex (final (taskProgress now t p s)) = false /\
  _lastProgressNotification (final (taskProgress now t p s)) = now.
Proof.
  intros Hfree H. unfold posted. rewrite progressCalls_cons by exact Hfree.
  rewrite (taskProgress_elapsed now t p s Hfree H).
  assert (Ht : trace (final (postNotification (TaskProgressNotification t p)
                                              (set_last now s))) =
               Ev (CallPost (TaskProgressNotification t p)) false :: trace s)
    by (destruct s; cbn in Hfree |- *; subst; reflexivity).
  assert (Hc : count_progress (Ev (CallPost (TaskProgressNotification t p)) false
                               :: trace s) = S (count_progress (trace s)))
    by reflexivity.
  rewrite Ht, Hc.
  split; [lia|]. split; destruct s; cbn in Hfree |- *; subst; reflexivity.
Qed.

Lemma posted_cons_dropped now t p r s :
  _mutex s = false ->
  now - _lastProgressNotification s < MIN_PROGRESS_NOTIFICATION_INTERVAL ->
  posted ((now, t, p) :: r) s = posted r s.
Proof.
  intros Hfree H. unfold posted. rewrite progressCalls_cons by exact Hfree.
  rewrite (taskProgress_dropped now t p s Hfree H). reflexivity.
Qed.

(** After the last forwarded notification at [last], every further one is at
    least one interval later and not after [hi]. *)
Lemma posted_bound_from_last calls s hi :
  _mutex s = false ->
  Forall (fun c => fst (fst c) <= hi) calls ->
  posted calls s * MIN_PROGRESS_NOTIFICATION_INTERVAL <=
    Z.max 0 (hi - _lastProgressNotification s).
Proof.
  revert s. induction calls as [|[[now t] p] r IH]; intros s Hfree Hall.
  - unfold posted. cbn [progressCalls final ret snd]. lia.
  - inversion Hall as [|? ? Hnow Hr]; subst. cbn [fst] in Hnow.
    destruct (Z.le_gt_cases MIN_PROGRESS_NOTIFICATION_INTERVAL
                (now - _lastProgressNotification s)) as [H|H].
    + destruct (posted_cons_elapsed now t p r s Hfree H) as (He & Hm & Hl).
      rewrite He. specialize (IH _ Hm Hr). rewrite Hl in IH.
      unfold MIN_PROGRESS_NOTIFICATION_INTERVAL in *. lia.
    + rewrite (posted_cons_dropped now t p r s Hfree H). exact (IH s Hfree Hr).
Qed.

Lemma posted_bound_window calls s lo hi :
  lo <= hi ->
  _mutex s = false ->
  Forall (fun c => lo <= fst (fst c) <= hi) calls ->
  posted calls s * MIN_PROGRESS_NOTIFICATION_INTERVAL <=
    hi - lo + MIN_PROGRESS_NOTIFICATION_INTERVAL.
Proof.
  intro Hlh. revert s. induction calls as [|[[now t] p] r IH]; intros s Hfree Hall.
  - unfold posted. cbn [progressCalls final ret snd].
    unfold MIN_PROGRESS_NOTIFICATION_INTERVAL. lia.
  - inversion Hall as [|? ? Hnow Hr]; subst. cbn [fst] in Hnow.
    destruct (Z.le_gt_cases MIN_PROGRESS_NOTIFICATION_INTERVAL
                (now - _lastProgressNotification s)) as [H|H].
    + destruct (posted_cons_elapsed now t p r s Hfree H) as (He & Hm & Hl).
      rewrite He.
      assert (Hr' : Forall (fun c => fst (fst c) <= hi) r)
        by exact (Forall_impl _ (fun c (Hc : lo <= fst (fst c) <= hi) => proj2 Hc) Hr).
      pose proof (posted_bound_from_last r _ hi Hm Hr') as Hb. rewrite Hl in Hb.
      unfold MIN_PROGRESS_NOTIFICATION_INTERVAL in *. lia.
    + rewrite (posted_cons_dropped now t p r s Hfree H). exact (IH s Hfree Hr).
Qed.

(** C7: whatever the state of the throttle, a sequence of [taskProgress]
    calls whose clock values lie in a window of length [D = hi - lo] forwards
    at most [ceil (D / 100 ms) + 1] progress notifications. *)
Theorem taskProgress_rate_bound calls s lo hi
  (Hspan : lo <= hi)
  (Hfree : _mutex s = false)
  (Hwin : Forall (fun c => lo <= fst (fst c) <= hi) calls) :
  posted calls s <= ceil_div (hi - lo) MIN_PROGRESS_NOTIFICATION_INTERVAL + 1.
Proof.
  pose proof (posted_bound_window calls s lo hi Hspan Hfree Hwin) as Hb.
  unfold ceil_div. unfold MIN_PROGRESS_NOTIFICATION_INTERVAL in *.
  pose proof (Z.div_mod (- (hi - lo)) 100000 ltac:(lia)) as Hdm.
  pose proof (Z.mod_pos_bound (- (hi - lo)) 100000 ltac:(lia)) as Hmb.
  nia.
Qed.

Lemma taskProgress_rate_bound_witness :
  posted (reportAt scenarioB_times) (TaskManager (-100000)) <=
    ceil_div (250000 - 0) MIN_PROGRESS_NOTIFICATION_INTERVAL + 1.
Proof.
  apply (taskProgress_rate_bound (reportAt scenarioB_times) (TaskManager (-100000))
           0 250000).
  - lia.
  - reflexivity.
  - unfold reportAt, scenarioB_times. cbn.
    repeat constructor; cbn; lia.
Defined.

(** C4 (code defect): the rollback of [startSync] pops the last registry
    entry instead of the entry of the task that raised.  Task 1's body
    starts subtask 2 (admitted by the pool) and raises: the error reaches
    the caller, but the registry ends as [[1]]: the failed task 1 is still
    registered and the admitted subtask 2 was removed. *)
Theorem startSync_rollback_pops_wrong_entry :
  let r := startSync (run_spawn_then_raise 2%nat) 1%nat (TaskManager 0) in
  result r = inr TaskError /\
  _taskList (final r) = [1%nat] /\
  trace (final r) = [Ev (CallPoolStart 2%nat 0) true; Ev (CallRun 1%nat) false].
Proof. vm_compute. repeat split. Qed.

(** C2 (code defect, the same [pop_back] in [startSync]): task 1 is started
    and admitted; task 2 is run synchronously, reports itself finished and
    raises.  Afterwards the registry is empty although task 1 was admitted
    and no finished notification for it was ever posted. *)
Theorem registry_loses_admitted_task :
  let r := (start admit_all 1%nat 0 ;;
            startSync run_finish_then_raise 2%nat) (TaskManager 0) in
  result (start admit_all 1%nat 0 (TaskManager 0)) = inl tt /\
  result r = inr TaskError /\
  _taskList (final r) = [] /\
  trace (final r) =
    [Ev (CallPost (TaskFinishedNotification 2%nat)) false;
     Ev (CallRun 2%nat) false;
     Ev (CallPoolStart 1%nat 0) true].
Proof. vm_compute. repeat split. Qed.

(** C8 (as stated): [start] calls the pool's admission, and [cancelAll]
    calls [cancel], with the registry mutex held. *)
Lemma mutex_held_across_foreign_calls_counterexample :
  In (Ev (CallPoolStart 1%nat 0) true)
     (trace (final (start admit_all 1%nat 0 (TaskManager 0)))) /\
  In (Ev (CallCancel 1%nat) true)
     (trace (final ((start admit_all 1%nat 0 ;; cancelAll) (TaskManager 0)))).
Proof. vm_compute. split; [left; reflexivity | left; reflexivity]. Qed.

Lemma start_trace admits t cpu s :
  _mutex s = false ->
  trace (final (start admits t cpu s)) = Ev (CallPoolStart t cpu) true :: trace s.
Proof.
  destruct s as [l last m o st tr]; cbn [_mutex]; intros ->.
  cbv [start scoped threadPool_start lock unlock setOwner setState push_back
       pop_back call catch_ bind ret throw modify final snd
       set_mutex set_owner set_state set_taskList set_trace].
  destruct (admits t); reflexivity.
Qed.

Lemma for_each_cancel l s :
  _mutex s = true ->
  for_each (fun t => call (CallCancel t)) l s =
    (inl tt, set_trace (rev (map (fun t => Ev (CallCancel t) true) l) ++ trace s) s).
Proof.
  revert s. induction l as [|x r IH]; intros s Hm.
  - destruct s; reflexivity.
  - cbn [for_each]. unfold bind at 1. cbv [call modify].
    rewrite IH by (destruct s; exact Hm).
    destruct s as [l' last m o st tr]; cbn in Hm |- *; subst m.
    rewrite <- app_assoc. reflexivity.
Qed.

Lemma cancelAll_trace s :
  _mutex s = false ->
  trace (final (cancelAll s)) =
    rev (map (fun t => Ev (CallCancel t) true) (_taskList s)) ++ trace s.
Proof.
  destruct s as [l last m o st tr]; cbn [_mutex]; intros ->.
  cbv [cancelAll scoped catch_ bind lock gets set_mutex].
  cbn [_mutex _taskList].
  rewrite for_each_cancel by reflexivity. reflexivity.
Qed.

(** C8 (amended): [start] holds the registry mutex while it calls the
    pool's admission, and [cancelAll] holds it while it calls [cancel] on
    every registered task (iterating the registry itself); [startSync]
    releases it before running the task, [taskProgress] and [taskFinished]
    release it before posting, and [taskStarted], [taskCancelled] and
    [taskFailed] post without taking it. *)
Theorem mutex_discipline s (Hfree : _mutex s = false) :
  (forall admits t cpu,
     trace (final (start admits t cpu s)) = Ev (CallPoolStart t cpu) true :: trace s) /\
  (forall t, In t (_taskList s) ->
     In (Ev (CallCancel t) true) (trace (final (cancelAll s)))) /\
  (forall run t, exists s1,
     _mutex s1 = false /\
     trace s1 = Ev (CallRun t) false :: trace s /\
     startSync run t s = catch_ (run t) (fun e => scoped pop_back ;; throw e) s1) /\
  (forall now t p,
     MIN_PROGRESS_NOTIFICATION_INTERVAL <= now - _lastProgressNotification s ->
     trace (final (taskProgress now t p s)) =
       Ev (CallPost (TaskProgressNotification t p)) false :: trace s) /\
  (forall t, trace (final (taskFinished t s)) =
       Ev (CallPost (TaskFinishedNotification t)) false :: trace s) /\
  (forall t, trace (final (taskStarted t s)) =
       Ev (CallPost (TaskStartedNotification t)) false :: trace s) /\
  (forall t, trace (final (taskCancelled t s)) =
       Ev (CallPost (TaskCancelledNotification t)) false :: trace s) /\
  (forall t, trace (final (taskFailed t s)) =
       Ev (CallPost (TaskFailedNotification t)) false :: trace s).
Proof.
  split; [intros; apply start_trace; exact Hfree|].
  split.
  { intros t Hin. rewrite (cancelAll_trace s Hfree). apply in_or_app. left.
    rewrite <- in_rev. apply in_map_iff. exists t. split; [reflexivity|exact Hin]. }
  split.
  { intros run t.
    destruct s as [l last m o st tr]; cbn in Hfree; subst m.
    eexists. split; [|split]; [| |reflexivity]; reflexivity. }
  split.
  { intros now t p H. rewrite (taskProgress_elapsed now t p s Hfree H).
    destruct s; cbn in Hfree |- *; subst; reflexivity. }
  split.
  { intro t. rewrite (taskFinished_eq t s Hfree). reflexivity. }
  repeat split; intro t; destruct s; cbn in Hfree |- *; subst; reflexivity.
Qed.

Lemma mutex_discipline_witness :
  let s := set_taskList [4%nat] (TaskManager 0) in
  (forall admits t cpu,
     trace (final (start admits t cpu s)) = Ev (CallPoolStart t cpu) true :: trace s) /\
  (forall t, In t (_taskList s) ->
     In (Ev (CallCancel t) true) (trace (final (cancelAll s)))) /\
  (forall run t, exists s1,
     _mutex s1 = false /\
     trace s1 = Ev (CallRun t) false :: trace s /\
     startSync run t s = catch_ (run t) (fun e => scoped pop_back ;; throw e) s1) /\
  (forall now t p,
     MIN_PROGRESS_NOTIFICATION_INTERVAL <= now - _lastProgressNotification s ->
     trace (final (taskProgress now t p s)) =
       Ev (CallPost (TaskProgressNotification t p)) false :: trace s) /\
  (forall t, trace (final (taskFinished t s)) =
       Ev (CallPost (TaskFinishedNotification t)) false :: trace s) /\
  (forall t, trace (final (taskStarted t s)) =
       Ev (CallPost (TaskStartedNotification t)) false :: trace s) /\
  (forall t, trace (final (taskCancelled t s)) =
       Ev (CallPost (TaskCancelledNotification t)) false :: trace s) /\
  (forall t, trace (final (taskFailed t s)) =
       Ev (CallPost (TaskFailedNotification t)) false :: trace s).
Proof.
  exact (mutex_discipline (set_taskList [4%nat] (TaskManager 0)) eq_refl).
Defined.

(** ** Further properties of the manager *)

Lemma start_eq admits t cpu l last o st tr :
  start admits t cpu (mkSt l last false o st tr) =
    (if admits t then inl tt else inr AdmissionError,
     mkSt (if admits t then l ++ [t] else l) last false
          (upd o t true) (upd st t TASK_STARTING)
          (Ev (CallPoolStart t cpu) true :: tr)).
Proof.
  cbv [start scoped threadPool_start lock unlock setOwner setState push_back
       pop_back call catch_ bind ret throw modify
       set_mutex set_owner set_state set_taskList set_trace].
  destruct (admits t);
    cbn [_mutex _taskList _lastProgressNotification owner state trace];
    [reflexivity|]. rewrite removelast_snoc. reflexivity.
Qed.

Lemma start_taskList admits t cpu s :
  _mutex s = false ->
  _taskList (final (start admits t cpu s)) =
    if admits t then _taskList s ++ [t] else _taskList s.
Proof.
  destruct s as [l last m o st tr]; cbn [_mutex]; intros ->.
  rewrite start_eq. reflexivity.
Qed.

(** X1: an admitted [start t cpu] returns normally, appends [t] to the
    registry, marks [t] owned and [TASK_STARTING], leaves the throttle
    timestamp alone, releases the mutex, and makes one call to the pool's
    admission (with the mutex held). *)
Theorem start_admitted admits t cpu s
  (Hfree : _mutex s = false) (Hadm : admits t = true) :
  let r := start admits t cpu s in
  result r = inl tt /\
  _taskList (final r) = _taskList s ++ [t] /\
  owner (final r) t = true /\
  state (final r) t = TASK_STARTING /\
  _lastProgressNotification (final r) = _lastProgressNotification s /\
  _mutex (final r) = false /\
  trace (final r) = Ev (CallPoolStart t cpu) true :: trace s.
Proof.
  destruct s as [l last m o st tr]; cbn [_mutex] in Hfree; subst m.
  cbv zeta. rewrite start_eq, Hadm. cbn. unfold upd. rewrite Nat.eqb_refl.
  repeat split.
Qed.

Lemma start_admitted_witness :
  let r := start admit_all 2%nat 0 (set_taskList [1%nat] (TaskManager 0)) in
  result r = inl tt /\
  _taskList (final r) = [1%nat] ++ [2%nat] /\
  owner (final r) 2%nat = true /\
  state (final r) 2%nat = TASK_STARTING /\
  _lastProgressNotification (final r) = 0 /\
  _mutex (final r) = false /\
  trace (final r) = Ev (CallPoolStart 2%nat 0) true :: [].
Proof.
  exact (start_admitted admit_all 2%nat 0 (set_taskList [1%nat] (TaskManager 0))
           eq_refl eq_refl).
Defined.

(** X2: starting a task that is not registered and is admitted, and then
    reporting it finished, gives back the registry the manager had before. *)
Theorem start_then_finished_restores_registry admits t cpu s
  (Hfree : _mutex s = false) (Hfresh : ~ In t (_taskList s))
  (Hadm : admits t = true) :
  _taskList (final (bind (start admits t cpu) (fun _ => taskFinished t) s)) =
    _taskList s.
Proof.
  destruct s as [l last m o st tr]; cbn [_mutex _taskList] in *; subst m.
  unfold bind at 1. rewrite start_eq, Hadm.
  rewrite taskFinished_eq by reflexivity. cbn.
  induction l as [|x r IH]; cbn.
  - rewrite Nat.eqb_refl. reflexivity.
  - destruct (Nat.eqb_spec x t) as [->|Hne].
    + exfalso. apply Hfresh. left. reflexivity.
    + rewrite IH; [reflexivity|]. intro H. apply Hfresh. right. exact H.
Qed.

Lemma start_then_finished_restores_registry_witness :
  _taskList (final (bind (start admit_all 3%nat 0) (fun _ => taskFinished 3%nat)
                     (set_taskList [1%nat; 2%nat] (TaskManager 0)))) =
    [1%nat; 2%nat].
Proof.
  apply (start_then_finished_restores_registry admit_all 3%nat 0
           (set_taskList [1%nat; 2%nat] (TaskManager 0))).
  - reflexivity.
  - cbn. lia.
  - reflexivity.
Defined.

Lemma erase_first_snoc_fresh t l : ~ In t l -> erase_first t (l ++ [t]) = l.
Proof.
  induction l as [|x r IH]; intro Hn; cbn.
  - rewrite Nat.eqb_refl. reflexivity.
  - destruct (Nat.eqb_spec x t) as [->|Hne].
    + exfalso. apply Hn. left. reflexivity.
    + rewrite IH; [reflexivity|]. intro H. apply Hn. right. exact H.
Qed.

Lemma startSync_eq run t l last o st tr :
  startSync run t (mkSt l last false o st tr) =
    catch_ (run t) (fun e => scoped pop_back ;; throw e)
      (mkSt (l ++ [t]) last false (upd o t true) (upd st t TASK_STARTING)
            (Ev (CallRun t) false :: tr)).
Proof. reflexivity. Qed.

(** X3: [startSync] of an unregistered task whose body takes the normal
    path (reports started, then finished) returns normally and leaves the
    registry as it was; the task was run with the mutex released, and both
    notifications were posted without it. *)
Theorem startSync_normal_run t s
  (Hfree : _mutex s = false) (Hfresh : ~ In t (_taskList s)) :
  let r := startSync run_normal t s in
  result r = inl tt /\
  _taskList (final r) = _taskList s /\
  _mutex (final r) = false /\
  trace (final r) =
    Ev (CallPost (TaskFinishedNotification t)) false ::
    Ev (CallPost (TaskStartedNotification t)) false ::
    Ev (CallRun t) false :: trace s.
Proof.
  destruct s as [l last m o st tr]; cbn [_mutex _taskList] in *; subst m.
  cbv zeta. rewrite startSync_eq.
  cbv [catch_ run_normal bind taskStarted postNotification call modify set_trace].
  cbn [_mutex trace].
  rewrite taskFinished_eq by reflexivity. cbn.
  rewrite erase_first_snoc_fresh by exact Hfresh. repeat split.
Qed.

Lemma startSync_normal_run_witness :
  let r := startSync run_normal 5%nat (set_taskList [1%nat] (TaskManager 0)) in
  result r = inl tt /\
  _taskList (final r) = [1%nat] /\
  _mutex (final r) = false /\
  trace (final r) =
    Ev (CallPost (TaskFinishedNotification 5%nat)) false ::
    Ev (CallPost (TaskStartedNotification 5%nat)) false ::
    Ev (CallRun 5%nat) false :: [].
Proof.
  apply (startSync_normal_run 5%nat (set_taskList [1%nat] (TaskManager 0))).
  - reflexivity.
  - cbn. lia.
Defined.

(** X4: when the task body raises without touching the registry, the
    rollback of [startSync] is right: the error reaches the caller, the
    registry is the one before the call and the mutex is released. *)
Theorem startSync_rollback_when_run_leaves_registry run t e s
  (Hfree : _mutex s = false)
  (Hrun : forall s', _mutex s' = false ->
            result (run t s') = inr e /\
            _taskList (final (run t s')) = _taskList s' /\
            _mutex (final (run t s')) = false) :
  let r := startSync run t s in
  result r = inr e /\ _taskList (final r) = _taskList s /\ _mutex (final r) = false.
Proof.
  destruct s as [l last m o st tr]; cbn [_mutex _taskList] in *; subst m.
  cbv zeta. rewrite startSync_eq. unfold catch_.
  match goal with |- context [run t ?s1] =>
    destruct (Hrun s1 eq_refl) as (He & Hl & Hm);
    destruct (run t s1) as [[a|e'] s2] eqn:Hr end.
  - cbn in He. discriminate.
  - cbn in He, Hl, Hm. injection He as ->.
    destruct s2 as [l2 last2 m2 o2 st2 tr2]; cbn in Hl, Hm; subst l2 m2.
    cbn. rewrite removelast_snoc. repeat split.
Qed.

Lemma startSync_rollback_when_run_leaves_registry_witness :
  let r := startSync (fun _ => throw TaskError) 5%nat
                     (set_taskList [1%nat] (TaskManager 0)) in
  result r = inr TaskError /\ _taskList (final r) = [1%nat] /\ _mutex (final r) = false.
Proof.
  apply (startSync_rollback_when_run_leaves_registry (fun _ => throw TaskError)
           5%nat TaskError (set_taskList [1%nat] (TaskManager 0))).
  - reflexivity.
  - intros s' Hs'. split; [reflexivity|]. split; [reflexivity|exact Hs'].
Defined.

(** X5: when the task body returns normally without touching the registry,
    [startSync] returns normally and the task stays registered, appended at
    the end (it leaves only through [taskFinished]). *)
Theorem startSync_success_keeps_task run t s
  (Hfree : _mutex s = false)
  (Hrun : forall s', _mutex s' = false ->
            result (run t s') = inl tt /\
            _taskList (final (run t s')) = _taskList s' /\
            _mutex (final (run t s')) = false) :
  let r := startSync run t s in
  result r = inl tt /\ _taskList (final r) = _taskList s ++ [t] /\
  _mutex (final r) = false.
Proof.
  destruct s as [l last m o st tr]; cbn [_mutex _taskList] in *; subst m.
  cbv zeta. rewrite startSync_eq. unfold catch_.
  match goal with |- context [run t ?s1] =>
    destruct (Hrun s1 eq_refl) as (He & Hl & Hm);
    destruct (run t s1) as [[a|e'] s2] eqn:Hr end.
  - cbn in He, Hl, Hm |- *. injection He as ->. repeat split; assumption.
  - cbn in He. discriminate.
Qed.

Lemma startSync_success_keeps_task_witness :
  let r := startSync taskStarted 5%nat (set_taskList [1%nat] (TaskManager 0)) in
  result r = inl tt /\ _taskList (final r) = [1%nat] ++ [5%nat] /\
  _mutex (final r) = false.
Proof.
  apply (startSync_success_keeps_task taskStarted 5%nat
           (set_taskList [1%nat] (TaskManager 0))).
  - reflexivity.
  - intros s' Hs'. destruct s'; cbn in Hs' |- *. subst.
    split; [reflexivity|]. split; reflexivity.
Defined.

Lemma cancelAll_eq l last o st tr :
  cancelAll (mkSt l last false o st tr) =
    (inl tt, mkSt l last false o st
               (rev (map (fun t => Ev (CallCancel t) true) l) ++ tr)).
Proof.
  cbv [cancelAll scoped catch_ bind lock gets set_mutex].
  cbn [_mutex _taskList].
  rewrite for_each_cancel by reflexivity. reflexivity.
Qed.

(** X6: [cancelAll] returns normally, changes neither the registry nor the
    throttle timestamp, releases the mutex, and calls [cancel] once on each
    registered task, in registry order, all with the mutex held. *)
Theorem cancelAll_cancels_each_once s (Hfree : _mutex s = false) :
  let r := cancelAll s in
  result r = inl tt /\
  _taskList (final r) = _taskList s /\
  _lastProgressNotification (final r) = _lastProgressNotification s /\
  _mutex (final r) = false /\
  trace (final r) =
    rev (map (fun t => Ev (CallCancel t) true) (_taskList s)) ++ trace s.
Proof.
  destruct s as [l last m o st tr]; cbn [_mutex] in Hfree; subst m.
  cbv zeta. rewrite cancelAll_eq. repeat split.
Qed.

Lemma cancelAll_cancels_each_once_witness :
  let r := cancelAll (set_taskList [1%nat; 2%nat] (TaskManager 0)) in
  result r = inl tt /\
  _taskList (final r) = [1%nat; 2%nat] /\
  _lastProgressNotification (final r) = 0 /\
  _mutex (final r) = false /\
  trace (final r) =
    rev (map (fun t => Ev (CallCancel t) true) [1%nat; 2%nat]) ++ [].
Proof.
  exact (cancelAll_cancels_each_once (set_taskList [1%nat; 2%nat] (TaskManager 0))
           eq_refl).
Defined.

Lemma taskList_eq s : _mutex s = false -> taskList s = (inl (_taskList s), s).
Proof. destruct s as [l last m o st tr]; cbn; intros ->. reflexivity. Qed.

(** X7: [taskList()] returns the registry and leaves the whole state as it
    found it (the mutex is taken and released again). *)
Theorem taskList_snapshot s (Hfree : _mutex s = false) :
  taskList s = (inl (_taskList s), s).
Proof. exact (taskList_eq s Hfree). Qed.

Lemma taskList_snapshot_witness :
  taskList (set_taskList [3%nat] (TaskManager 0)) =
    (inl [3%nat], set_taskList [3%nat] (TaskManager 0)).
Proof. exact (taskList_snapshot (set_taskList [3%nat] (TaskManager 0)) eq_refl). Defined.

Lemma taskProgress_taskList now t p s :
  _mutex s = false -> _taskList (final (taskProgress now t p s)) = _taskList s.
Proof.
  intro Hfree.
  destruct (Z.le_gt_cases MIN_PROGRESS_NOTIFICATION_INTERVAL
              (now - _lastProgressNotification s)) as [H|H].
  - rewrite (taskProgress_elapsed now t p s Hfree H). destruct s; reflexivity.
  - rewrite (taskProgress_dropped now t p s Hfree H). reflexivity.
Qed.

(** X8: apart from [taskFinished] (and the rollback of [startSync]), no
    operation removes a registry entry: [start] keeps the old registry as a
    prefix (appending the task when admitted), and [cancelAll], [taskList],
    [taskProgress], [taskStarted], [taskCancelled] and [taskFailed] leave it
    unchanged. *)
Theorem registry_only_grows s (Hfree : _mutex s = false) :
  (forall admits t cpu, exists ext,
     _taskList (final (start admits t cpu s)) = _taskList s ++ ext /\
     (ext = [] \/ ext = [t])) /\
  _taskList (final (cancelAll s)) = _taskList s /\
  _taskList (final (taskList s)) = _taskList s /\
  (forall now t p, _taskList (final (taskProgress now t p s)) = _taskList s) /\
  (forall t, _taskList (final (taskStarted t s)) = _taskList s) /\
  (forall t, _taskList (final (taskCancelled t s)) = _taskList s) /\
  (forall t, _taskList (final (taskFailed t s)) = _taskList s).
Proof.
  split.
  { intros admits t cpu. rewrite (start_taskList admits t cpu s Hfree).
    destruct (admits t).
    - exists [t]. split; [reflexivity|right; reflexivity].
    - exists []. split; [symmetry; apply app_nil_r|left; reflexivity]. }
  split; [destruct s; cbn in Hfree; subst; rewrite cancelAll_eq; reflexivity|].
  split; [rewrite (taskList_eq s Hfree); reflexivity|].
  split; [intros now t p; apply (taskProgress_taskList now t p s Hfree)|].
  repeat split.
Qed.

Lemma registry_only_grows_witness :
  let s := set_taskList [1%nat] (TaskManager 0) in
  (forall admits t cpu, exists ext,
     _taskList (final (start admits t cpu s)) = _taskList s ++ ext /\
     (ext = [] \/ ext = [t])) /\
  _taskList (final (cancelAll s)) = _taskList s /\
  _taskList (final (taskList s)) = _taskList s /\
  (forall now t p, _taskList (final (taskProgress now t p s)) = _taskList s) /\
  (forall t, _taskList (final (taskStarted t s)) = _taskList s) /\
  (forall t, _taskList (final (taskCancelled t s)) = _taskList s) /\
  (forall t, _taskList (final (taskFailed t s)) = _taskList s).
Proof. exact (registry_only_grows (set_taskList [1%nat] (TaskManager 0)) eq_refl). Defined.

Lemma cons_neq_self {A} (x : A) l : x :: l <> l.
Proof.
  revert x. induction l as [|y r IH]; intros x H; [discriminate|].
  injection H as -> Hr. exact (IH y Hr).
Qed.

(** X9: the throttle is one timestamp for all tasks: once a progress
    notification (of any task [a]) has been forwarded at [now1], the next
    progress call, of any task [b], at [now2] is forwarded exactly when
    [now2 - now1] is at least 100 ms. *)
Theorem progress_throttle_shared now1 a p now2 b q s
  (Hfree : _mutex s = false)
  (Hfwd : MIN_PROGRESS_NOTIFICATION_INTERVAL <= now1 - _lastProgressNotification s) :
  let s1 := final (taskProgress now1 a p s) in
  trace (final (taskProgress now2 b q s1)) =
    Ev (CallPost (TaskProgressNotification b q)) false :: trace s1 <->
  MIN_PROGRESS_NOTIFICATION_INTERVAL <= now2 - now1.
Proof.
  cbv zeta. rewrite (taskProgress_elapsed now1 a p s Hfree Hfwd).
  set (s1 := final (postNotification (TaskProgressNotification a p) (set_last now1 s))).
  assert (Hm : _mutex s1 = false) by (subst s1; destruct s; exact Hfree).
  assert (Hl : _lastProgressNotification s1 = now1) by (subst s1; destruct s; reflexivity).
  split.
  - intro Htr. destruct (Z.le_gt_cases MIN_PROGRESS_NOTIFICATION_INTERVAL (now2 - now1))
      as [H|H]; [exact H|].
    rewrite <- Hl in H. rewrite (taskProgress_dropped now2 b q s1 Hm H) in Htr.
    cbn in Htr. symmetry in Htr. exfalso. exact (cons_neq_self _ _ Htr).
  - intro H. rewrite <- Hl in H. rewrite (taskProgress_elapsed now2 b q s1 Hm H).
    destruct s1; cbn in Hm |- *; subst; reflexivity.
Qed.

Lemma progress_throttle_shared_witness :
  let s1 := final (taskProgress 200000 1%nat 10 (TaskManager 0)) in
  trace (final (taskProgress 250000 2%nat 20 s1)) =
    Ev (CallPost (TaskProgressNotification 2%nat 20)) false :: trace s1 <->
  MIN_PROGRESS_NOTIFICATION_INTERVAL <= 250000 - 200000.
Proof.
  apply (progress_throttle_shared 200000 1%nat 10 250000 2%nat 20 (TaskManager 0)).
  - reflexivity.
  - unfold MIN_PROGRESS_NOTIFICATION_INTERVAL. cbn. lia.
Defined.

(** X10: on a registry without duplicates, [taskFinished t] leaves a
    registry without duplicates in which [t] is absent, every other task is
    present exactly when it was before, and which is one entry shorter when
    [t] was registered. *)
Theorem taskFinished_membership t s
  (Hfree : _mutex s = false) (Hnd : NoDup (_taskList s)) :
  let l1 := _taskList (final (taskFinished t s)) in
  NoDup l1 /\ ~ In t l1 /\
  (forall u, u <> t -> (In u l1 <-> In u (_taskList s))) /\
  (In t (_taskList s) -> S (length l1) = length (_taskList s)).
Proof.
  cbv zeta. rewrite (taskFinished_eq t s Hfree). cbn [final snd _taskList set_trace set_taskList].
  destruct (erase_first_split t (_taskList s)) as [[Hn He]|(l1 & l2 & Hl & Hn & He)];
    rewrite He.
  - split; [exact Hnd|]. split; [exact Hn|]. split; [intros; reflexivity|].
    intro Hin. contradiction.
  - rewrite Hl in Hnd. split; [exact (proj1 (NoDup_remove _ _ _ Hnd))|].
    split; [exact (NoDup_remove_2 _ _ _ Hnd)|]. split.
    + intros u Hu. rewrite Hl. rewrite !in_app_iff. cbn.
      split; [tauto|]. intros [H|[H|H]]; [tauto|congruence|tauto].
    + intros _. rewrite Hl, !length_app. cbn. lia.
Qed.

Lemma taskFinished_membership_witness :
  let s := set_taskList [1%nat; 2%nat; 3%nat] (TaskManager 0) in
  let l1 := _taskList (final (taskFinished 2%nat s)) in
  NoDup l1 /\ ~ In 2%nat l1 /\
  (forall u, u <> 2%nat -> (In u l1 <-> In u (_taskList s))) /\
  (In 2%nat (_taskList s) -> S (length l1) = length (_taskList s)).
Proof.
  apply (taskFinished_membership 2%nat (set_taskList [1%nat; 2%nat; 3%nat] (TaskManager 0))).
  - reflexivity.
  - cbn. repeat constructor; cbn; lia.
Defined.

(** X11: [start] keeps the registry free of duplicates when the started
    task is not yet registered, whatever the pool decides. *)
Theorem start_preserves_NoDup admits t cpu s
  (Hfree : _mutex s = false) (Hnd : NoDup (_taskList s))
  (Hfresh : ~ In t (_taskList s)) :
  NoDup (_taskList (final (start admits t cpu s))).
Proof.
  rewrite (start_taskList admits t cpu s Hfree). destruct (admits t); [|exact Hnd].
  apply NoDup_app; [exact Hnd|repeat constructor; intros []|].
  intros x Hx [<-|[]]. contradiction.
Qed.

Lemma start_preserves_NoDup_witness :
  NoDup (_taskList (final (start admit_all 3%nat 0
                              (set_taskList [1%nat; 2%nat] (TaskManager 0))))).
Proof.
  apply (start_preserves_NoDup admit_all 3%nat 0
           (set_taskList [1%nat; 2%nat] (TaskManager 0))).
  - reflexivity.
  - cbn. repeat constructor; cbn; lia.
  - cbn. lia.
Defined.

(** X12: a rejected [start] leaves no entry behind, so retrying the same
    task with a pool that admits it registers the task exactly once. *)
Theorem start_retry_registers_once t cpu s
  (Hfree : _mutex s = false) (Hfresh : ~ In t (_taskList s)) :
  let r := bind (start (fun _ => false) t cpu) (fun _ => ret tt) s in
  let s2 := final (start admit_all t cpu (final r)) in
  result r = inr AdmissionError /\
  _taskList s2 = _taskList s ++ [t] /\
  count_occ Nat.eq_dec (_taskList s2) t = 1%nat.
Proof.
  destruct s as [l last m o st tr]; cbn [_mutex _taskList] in *; subst m.
  cbv zeta. unfold bind. rewrite start_eq. cbn [result final fst snd].
  rewrite start_eq. cbn [result final fst snd _taskList admit_all].
  split; [reflexivity|]. split; [reflexivity|].
  rewrite count_occ_app. rewrite (proj1 (count_occ_not_In (A:=TaskId) Nat.eq_dec l t) Hfresh).
  cbn. destruct (Nat.eq_dec t t); [reflexivity|congruence].
Qed.

Lemma start_retry_registers_once_witness :
  let r := bind (start (fun _ => false) 4%nat 0) (fun _ => ret tt)
                (set_taskList [1%nat] (TaskManager 0)) in
  let s2 := final (start admit_all 4%nat 0 (final r)) in
  result r = inr AdmissionError /\
  _taskList s2 = [1%nat] ++ [4%nat] /\
  count_occ Nat.eq_dec (_taskList s2) 4%nat = 1%nat.
Proof.
  apply (start_retry_registers_once 4%nat 0 (set_taskList [1%nat] (TaskManager 0))).
  - reflexivity.
  - cbn. lia.
Defined.
